(** * ersilia/api/commands/serve.py: the [serve] command

    A shallow embedding of [serve] (src/ersilia/api/commands/serve.py) and
    the properties of its request validation, cache-mode resolution,
    collaborator sequencing and result assembly.

    [serve] is sequential Python that raises, calls external collaborators
    ([ErsiliaModel], [SetupRedis], [register_model_session] and the methods
    of the objects the first two return) and returns a dict.  It is
    embedded in a state-and-exception monad over a [World] that records
    every collaborator call in order, with the collaborators' answers taken
    from an environment [Collaborators]. *)

From Stdlib Require Import ZArith QArith Lia.
From Stdlib Require Import Floats.SpecFloat.
From stdpp Require Import gmap strings list fin_maps.

Local Open Scope string_scope.

(** ** Python values used by [serve] *)

(** A Python [float] is an IEEE 754 binary64 value: [spec_float] with
    precision 53 and maximal exponent 1024. *)
Definition pyfloat : Type := spec_float.

Definition prec64 : Z := 53.
Definition emax64 : Z := 1024.

Definition is_binary64 (x : pyfloat) : Prop := valid_binary prec64 emax64 x = true.

(** The literals [0.2] and [0.7] of line 36: the binary64 values nearest to
    1/5 and 7/10, [0x1.999999999999ap-3] and [0x1.6666666666666p-1]. *)
Definition lit_0_2 : pyfloat := S754_finite false 7205759403792794 (-55).
Definition lit_0_7 : pyfloat := S754_finite false 6305039478318694 (-53).

(** Python's [a <= b] on floats. *)
Definition float_le (a b : pyfloat) : bool := SFleb a b.

(** The exact rational value of a float; [None] for infinities and NaN. *)
Definition SF2Q (x : pyfloat) : option Q :=
  match x with
  | S754_zero _ => Some 0%Q
  | S754_finite s m e =>
      let n := cond_Zopp s (Zpos m) in
      Some match e with
           | Z0 => inject_Z n
           | Zpos k => inject_Z (n * Zpos (2 ^ k))
           | Zneg k => Qmake n (2 ^ k)
           end
  | S754_infinity _ | S754_nan => None
  end.

(** A float whose value lies in the recommended range, bounds included. *)
Definition in_recommended_range (f : pyfloat) : Prop :=
  exists q, SF2Q f = Some q /\ (2 # 10 <= q)%Q /\ (q <= 7 # 10)%Q.

(** Modelled from the spec: [store.utils.OutputSource] is not in the
    sources; of the cache sources of section 3 these are local-only,
    cloud-only and hybrid, under the names [serve] uses for them. *)
Inductive OutputSource : Type := LOCAL_ONLY | CLOUD_ONLY | CACHE_ONLY.

(** A raised Python exception: its class name and its message. *)
Record exn : Type := Exn { exn_class : string; exn_msg : string }.

Definition RuntimeError (msg : string) : exn := Exn "RuntimeError" msg.

(** The server/socket descriptor [mdl.scl]; opaque to [serve]. *)
Inductive SRV : Type := Srv (descr : string).

(** Values stored in the returned dict. *)
Inductive pyval : Type :=
| VNone
| VStr (s : string)
| VSrv (h : SRV)
| VList (l : list string).

Definition opt_str (o : option string) : pyval :=
  match o with Some s => VStr s | None => VNone end.

Definition opt_list (o : option (list string)) : pyval :=
  match o with Some l => VList l | None => VNone end.

(** ** Collaborators *)

(** The attributes of an [ErsiliaModel] instance that [serve] reads. *)
Record ModelHandle : Type := {
  model_id : string;
  url : option string;
  scl : SRV;
  session_dir : string   (* session._session_dir *)
}.

(** A [SetupRedis] instance; [serve] only calls [_is_amenable] on it. *)
Inductive RedisSetup : Type := Redis (tag : string).

Inductive outcome (A : Type) : Type :=
| Returned (a : A)
| Raised (e : exn).
Arguments Returned {A} a.
Arguments Raised {A} e.

(** What the external code answers: the two constructors [ErsiliaModel]
    and [SetupRedis], and the methods [mdl.is_valid], [mdl.serve],
    [mdl.get_apis] and [redis_setup._is_amenable].  Each may raise;
    [mdl.serve] mutates the handle, which is returned. *)
Record Collaborators : Type := {
  ErsiliaModel :
    string -> option OutputSource -> option Z -> bool -> option pyfloat ->
    outcome ModelHandle;
  SetupRedis : bool -> option pyfloat -> outcome RedisSetup;
  is_valid : ModelHandle -> outcome bool;
  mdl_serve : ModelHandle -> option string -> outcome ModelHandle;
  get_apis : ModelHandle -> outcome (list string);
  is_amenable : RedisSetup -> outcome (bool * string)
}.

(** One entry per call that leaves [serve]. *)
Inductive Event : Type :=
| EvErsiliaModel (model : string) (output_source : option OutputSource)
    (preferred_port : option Z) (cache : bool) (maxmemory : option pyfloat)
| EvSetupRedis (enable : bool) (maxmemory : option pyfloat)
| EvIsValid (mdl : ModelHandle)
| EvServe (mdl : ModelHandle) (track_runs : option string)
| EvRegister (model_id session_dir : string)
| EvGetApis (mdl : ModelHandle)
| EvIsAmenable (r : RedisSetup).

(** The process state outside [serve]: the calls made so far, oldest
    first, and the session registry of [utils.session]. *)
Record World : Type := {
  trace : list Event;
  sessions : gmap string string
}.

Definition initial_world : World := {| trace := []; sessions := ∅ |}.

(** ** The monad *)

Definition M (A : Type) : Type := World -> outcome A * World.

Definition ret {A} (a : A) : M A := fun w => (Returned a, w).

Definition raise {A} (e : exn) : M A := fun w => (Raised e, w).

Definition bind {A B} (m : M A) (k : A -> M B) : M B :=
  fun w =>
    match m w with
    | (Returned a, w') => k a w'
    | (Raised e, w') => (Raised e, w')
    end.

Declare Scope py_scope.
Delimit Scope py_scope with py.
Notation "x <- m ; k" := (bind m (fun x => k))
  (at level 100, m at next level, right associativity) : py_scope.
Notation "m ;; k" := (bind m (fun _ => k))
  (at level 100, right associativity) : py_scope.

(** A step inside [serve]: it returns or raises, and calls nothing. *)
Definition step {A} (o : outcome A) : M A := fun w => (o, w).

(** A call to a collaborator: it is recorded, then answers or raises. *)
Definition call {A} (ev : Event) (answer : outcome A) : M A :=
  fun w => (answer, {| trace := (trace w ++ [ev])%list; sessions := sessions w |}).

(** Modelled from the spec: [utils.session.register_model_session] is not
    in the sources; section 4.5 gives it as an upsert into process-wide
    state keyed by model identifier. *)
Definition register_model_session (mid dir : string) : M unit :=
  fun w =>
    (Returned tt,
     {| trace := (trace w ++ [EvRegister mid dir])%list;
        sessions := <[mid := dir]> (sessions w) |}).

(** ** [serve] *)

(** A dict display [{k1: v1, ..., kn: vn}]: the items are stored left to
    right, a later item replacing an earlier one with the same key. *)
Definition py_dict (items : list (string * pyval)) : gmap string pyval :=
  fold_left (fun d kv => <[kv.1 := kv.2]> d) items ∅.

Definition range_message : string :=
  "Maximum fraction of memory to use by Redis for caching is outside of recommended range (0.2–0.7).".

Definition invalid_message (mid : string) : string :=
  "Model " +:+ mid +:+ " is not valid or not found.".

Definition no_url_message : string := "No URL found. Service unsuccessful.".

(** Lines 35-39. *)
Definition check_max_cache_memory_frac (max_cache_memory_frac : option pyfloat)
  : outcome unit :=
  match max_cache_memory_frac with
  | Some f =>
      if negb (float_le lit_0_2 f && float_le f lit_0_7)
      then Raised (RuntimeError range_message)
      else Returned tt
  | None => Returned tt
  end.

(** Lines 41-54: three assignments guarded by the three toggles, in the
    order of the source. *)
Definition cache_mode
    (enable_local_cache local_cache_only cloud_cache_only cache_only : bool)
  : option OutputSource * bool * string :=
  let output_source : option OutputSource := None in
  let cache_status := "Disabled" in
  let '(output_source, enable_local_cache, cache_status) :=
    if local_cache_only
    then (Some LOCAL_ONLY, true, "Local only")
    else (output_source, enable_local_cache, cache_status) in
  let '(output_source, cache_status) :=
    if cloud_cache_only
    then (Some CLOUD_ONLY, "Cloud only")
    else (output_source, cache_status) in
  let '(output_source, enable_local_cache, cache_status) :=
    if cache_only
    then (Some CACHE_ONLY, true, "Hybrid (local & cloud)")
    else (output_source, enable_local_cache, cache_status) in
  (output_source, enable_local_cache, cache_status).

(** Lines 81-86: the loop appends to [additional_apis] one name at a time. *)
Definition additional_apis_of (apis : list string) : option (list string) :=
  let additional_apis : option (list string) := None in
  if bool_decide (apis ≠ ["run"])
  then
    Some (fold_left
            (fun acc api => if bool_decide (api ≠ "run") then (acc ++ [api])%list else acc)
            apis [])
  else additional_apis.

Local Open Scope py_scope.

Definition serve (C : Collaborators)
    (model : string) (port : option Z) (track : bool) (tracking_use_case : string)
    (enable_local_cache local_cache_only cloud_cache_only cache_only : bool)
    (max_cache_memory_frac : option pyfloat) : M (gmap string pyval) :=
  step (check_max_cache_memory_frac max_cache_memory_frac) ;;
  let '(output_source, enable_local_cache, cache_status) :=
    cache_mode enable_local_cache local_cache_only cloud_cache_only cache_only in
  mdl <- call (EvErsiliaModel model output_source port enable_local_cache
                 max_cache_memory_frac)
           (ErsiliaModel C model output_source port enable_local_cache
              max_cache_memory_frac) ;
  redis_setup <- call (EvSetupRedis enable_local_cache max_cache_memory_frac)
                   (SetupRedis C enable_local_cache max_cache_memory_frac) ;
  valid <- call (EvIsValid mdl) (is_valid C mdl) ;
  if negb valid
  then raise (RuntimeError (invalid_message (model_id mdl)))
  else
    let track_runs := if track then Some tracking_use_case else None in
    mdl <- call (EvServe mdl track_runs) (mdl_serve C mdl track_runs) ;
    match url mdl with
    | None => raise (RuntimeError no_url_message)
    | Some _ =>
        register_model_session (model_id mdl) (session_dir mdl) ;;
        apis <- call (EvGetApis mdl) (get_apis C mdl) ;
        let additional_apis := additional_apis_of apis in
        amenable <- call (EvIsAmenable redis_setup) (is_amenable C redis_setup) ;
        ret (py_dict
               [ ("Model ID", VStr (model_id mdl));
                 ("URL", opt_str (url mdl));
                 ("SRV", VSrv (scl mdl));
                 ("Session", VStr (session_dir mdl));
                 ("Cache Fetching Mode", VStr cache_status);
                 ("Local Cache", VStr (if amenable.1 then "Enabled" else "Disabled"));
                 ("Tracking", VStr (if track then "Enabled" else "Disabled"));
                 ("Default API", VStr "run");
                 ("Additional APIs", opt_list additional_apis) ])
    end.

Local Close Scope py_scope.

(** ** The cache-mode resolution as section 4.2 words it *)

Module Spec.

Inductive CacheSource : Type := unset | local_only | cloud_only | hybrid.

Record CacheResolution : Type := {
  source : CacheSource;
  local_cache_enabled : bool;
  status_label : string
}.

(** Step 1. *)
Definition start (baseline : bool) : CacheResolution :=
  {| source := unset; local_cache_enabled := baseline; status_label := "Disabled" |}.

(** Steps 2 to 4: what each one writes when its guard is true. *)
Definition write_local_only (r : CacheResolution) : CacheResolution :=
  {| source := local_only; local_cache_enabled := true; status_label := "Local only" |}.

Definition write_cloud_only (r : CacheResolution) : CacheResolution :=
  {| source := cloud_only;
     local_cache_enabled := local_cache_enabled r;
     status_label := "Cloud only" |}.

Definition write_cache_only (r : CacheResolution) : CacheResolution :=
  {| source := hybrid;
     local_cache_enabled := true;
     status_label := "Hybrid (local & cloud)" |}.

(** The ordered list of (guard, overwrite) pairs, applied first to last. *)
Definition resolve (baseline local_cache_only cloud_cache_only cache_only : bool)
  : CacheResolution :=
  fold_left
    (fun (r : CacheResolution) (step : bool * (CacheResolution -> CacheResolution)) =>
       if fst step then snd step r else r)
    [ (local_cache_only, write_local_only);
      (cloud_cache_only, write_cloud_only);
      (cache_only, write_cache_only) ]
    (start baseline).

End Spec.

(** The spec's names for the values of [output_source]. *)
Definition source_of (o : option OutputSource) : Spec.CacheSource :=
  match o with
  | None => Spec.unset
  | Some LOCAL_ONLY => Spec.local_only
  | Some CLOUD_ONLY => Spec.cloud_only
  | Some CACHE_ONLY => Spec.hybrid
  end.

Definition resolution_of (r : option OutputSource * bool * string)
  : Spec.CacheResolution :=
  let '(output_source, enable_local_cache, cache_status) := r in
  {| Spec.source := source_of output_source;
     Spec.local_cache_enabled := enable_local_cache;
     Spec.status_label := cache_status |}.

(** The spec's three error kinds are the three [raise] statements of
    [serve]; each is a Python [RuntimeError], told apart by its message. *)
Definition ConfigurationError : exn := RuntimeError range_message.
Definition ModelNotFoundError (mid : string) : exn := RuntimeError (invalid_message mid).
Definition ServeFailedError : exn := RuntimeError no_url_message.

(** Events by kind. *)
Definition is_construct_event (ev : Event) : bool :=
  match ev with EvErsiliaModel _ _ _ _ _ => true | _ => false end.
Definition is_configure_event (ev : Event) : bool :=
  match ev with EvSetupRedis _ _ | EvIsAmenable _ => true | _ => false end.
Definition is_serve_event (ev : Event) : bool :=
  match ev with EvServe _ _ => true | _ => false end.
Definition is_register_event (ev : Event) : bool :=
  match ev with EvRegister _ _ => true | _ => false end.

(** The nine keys of the returned dict. *)
Definition result_keys : list string :=
  [ "Model ID"; "URL"; "SRV"; "Session"; "Cache Fetching Mode"; "Local Cache";
    "Tracking"; "Default API"; "Additional APIs" ].

(** The calls made between two worlds. *)
Definition calls_of (w w' : World) : list Event :=
  drop (length (trace w)) (trace w').

Definition not_run (api : string) : Prop := api ≠ "run".

#[local] Instance not_run_dec api : Decision (not_run api).
Proof. unfold not_run. apply _. Defined.

(** ** Sample calls *)

(** A model that is found under the requested identifier and, once served,
    has the URL [u]; [get_apis] answers [apis]; Redis answers [amenable]. *)
Definition sample_handle (mid : string) (u : option string) : ModelHandle :=
  {| model_id := mid; url := u; scl := Srv "pulled_docker";
     session_dir := "/sessions/" +:+ mid |}.

Definition sample_env (valid : bool) (u : option string) (apis : list string)
    (amenable : bool) : Collaborators :=
  {| ErsiliaModel := fun m _ _ _ _ => Returned (sample_handle m None);
     SetupRedis := fun _ _ => Returned (Redis "redis");
     is_valid := fun _ => Returned valid;
     mdl_serve := fun h _ => Returned (sample_handle (model_id h) u);
     get_apis := fun _ => Returned apis;
     is_amenable := fun _ => Returned (amenable, "") |}.

Definition sample_url : string := "http://0.0.0.0:3000".

Definition served_handle : ModelHandle := sample_handle "eos3b5e" (Some sample_url).

(** [serve("eos3b5e", track=True, local_cache_only=True)] on a model that
    exposes [apis], with Redis not reachable. *)
Definition sample_call (apis : list string) : outcome (gmap string pyval) * World :=
  serve (sample_env true (Some sample_url) apis false)
    "eos3b5e" None true "local" true true false false None initial_world.

Definition result_of (r : outcome (gmap string pyval) * World) : gmap string pyval :=
  match r.1 with Returned d => d | Raised _ => ∅ end.

(** [ErsiliaModel] resolving a slug to the identifier of a model that is
    not valid. *)
Definition slug_env : Collaborators :=
  {| ErsiliaModel := fun _ _ _ _ _ => Returned (sample_handle "eos0aaa" None);
     SetupRedis := fun _ _ => Returned (Redis "redis");
     is_valid := fun _ => Returned false;
     mdl_serve := fun h _ => Returned h;
     get_apis := fun _ => Returned ["run"];
     is_amenable := fun _ => Returned (true, "") |}.

(** [serve("my-slug")] against [slug_env]. *)
Definition slug_call : outcome (gmap string pyval) * World :=
  serve slug_env "my-slug" None false "local" true false false false None
    initial_world.

(** [serve("eos3b5e")] on a model whose server comes up without a URL. *)
Definition no_url_call : outcome (gmap string pyval) * World :=
  serve (sample_env true None ["run"] false)
    "eos3b5e" None false "local" true false false false None initial_world.

(** [serve("eos3b5e", max_cache_memory_frac=f)]. *)
Definition frac_call (f : pyfloat) : outcome (gmap string pyval) * World :=
  serve (sample_env true (Some sample_url) ["run"] true)
    "eos3b5e" None false "local" true false false false (Some f) initial_world.

(** The float [0.9], [0x1.ccccccccccccdp-1]. *)
Definition lit_0_9 : pyfloat := S754_finite false 8106479329266893 (-53).

(** ** The shape of a run *)


(** The collaborator called at [ev] answered by raising [e]. *)
Definition raised_by (C : Collaborators) (ev : Event) (e : exn) : Prop :=
  match ev with
  | EvErsiliaModel m src p c f => ErsiliaModel C m src p c f = Raised e
  | EvSetupRedis c f => SetupRedis C c f = Raised e
  | EvIsValid m => is_valid C m = Raised e
  | EvServe m t => mdl_serve C m t = Raised e
  | EvRegister _ _ => False
  | EvGetApis m => get_apis C m = Raised e
  | EvIsAmenable r => is_amenable C r = Raised e
  end.

(** The label that lines 41-54 pair with each value of [output_source]. *)
Definition status_of_source (o : option OutputSource) : string :=
  match o with
  | None => "Disabled"
  | Some LOCAL_ONLY => "Local only"
  | Some CLOUD_ONLY => "Cloud only"
  | Some CACHE_ONLY => "Hybrid (local & cloud)"
  end.

(** A model that is served with a URL, and whose [get_apis] raises. *)
Definition apis_error : exn := Exn "KeyError" "apis".

Definition apis_fail_env : Collaborators :=
  {| ErsiliaModel := fun m _ _ _ _ => Returned (sample_handle m None);
     SetupRedis := fun _ _ => Returned (Redis "redis");
     is_valid := fun _ => Returned true;
     mdl_serve := fun h _ => Returned (sample_handle (model_id h) (Some sample_url));
     get_apis := fun _ => Raised apis_error;
     is_amenable := fun _ => Returned (true, "") |}.

Definition apis_fail_call : outcome (gmap string pyval) * World :=
  serve apis_fail_env "eos3b5e" None false "local" true false false false None
    initial_world.

(** * Properties *)

(** ** The range test on binary64 values (line 36) *)

Section FloatRange.

Local Open Scope Z_scope.

Lemma digits2_pos_bounds (m : positive) :
  2 ^ (Zpos (digits2_pos m) - 1) <= Zpos m < 2 ^ Zpos (digits2_pos m).
Proof.
  induction m as [m IH|m IH|]; cbn [digits2_pos].
  - rewrite Pos2Z.inj_succ.
    replace (Z.succ (Zpos (digits2_pos m)) - 1)
      with (Z.succ (Zpos (digits2_pos m) - 1)) by lia.
    rewrite !Z.pow_succ_r by lia. lia.
  - rewrite Pos2Z.inj_succ.
    replace (Z.succ (Zpos (digits2_pos m)) - 1)
      with (Z.succ (Zpos (digits2_pos m) - 1)) by lia.
    rewrite !Z.pow_succ_r by lia. lia.
  - cbn. lia.
Qed.

(** A binary64 mantissa has at most 53 bits, and exactly 53 above the
    subnormal exponent. *)
Lemma binary64_mantissa (s : bool) (m : positive) (e : Z) :
  is_binary64 (S754_finite s m e) ->
  -1074 <= e <= 971 /\ Zpos m < 2 ^ 53 /\ (-1074 < e -> 2 ^ 52 <= Zpos m).
Proof.
  unfold is_binary64, valid_binary, bounded, canonical_mantissa, fexp, emin,
    prec64, emax64.
  intros H. apply andb_prop in H. destruct H as [Hc Hb].
  apply Z.eqb_eq in Hc. apply Z.leb_le in Hb.
  pose proof (digits2_pos_bounds m) as [Hlo Hhi].
  set (d := Zpos (digits2_pos m)) in *.
  assert (0 < d) by (unfold d; lia).
  assert (d <= 53 /\ (-1074 < e -> d = 53) /\ -1074 <= e) as (Hd & Hn & He) by lia.
  split; [lia|]. split.
  - eapply Z.lt_le_trans; [exact Hhi|]. apply Z.pow_le_mono_r; lia.
  - intros Hlt. rewrite (Hn Hlt) in Hlo. exact Hlo.
Qed.

Lemma compare_cont_Z (a b : positive) :
  PosDef.Pos.compare_cont Eq a b = Z.compare (Zpos a) (Zpos b).
Proof. reflexivity. Qed.

Lemma float_le_lit_0_2 (m : positive) (e : Z) :
  float_le lit_0_2 (S754_finite false m e) = true <->
  -55 < e \/ (e = -55 /\ 7205759403792794 <= Zpos m).
Proof.
  unfold float_le, SFleb, lit_0_2, SFcompare.
  destruct (Z.compare_spec (-55) e) as [He|He|He].
  - subst e. rewrite compare_cont_Z.
    destruct (Z.compare_spec 7205759403792794 (Zpos m)) as [Hm|Hm|Hm].
    + split; [intros _; right; split; [reflexivity|lia] | reflexivity].
    + split; [intros _; right; split; [reflexivity|lia] | reflexivity].
    + split; [discriminate|]. intros [H|[_ H]]; exfalso; lia.
  - split; [intros _; left; exact He | reflexivity].
  - split; [discriminate|]. intros [H|[H _]]; exfalso; lia.
Qed.

Lemma float_le_lit_0_7 (m : positive) (e : Z) :
  float_le (S754_finite false m e) lit_0_7 = true <->
  e < -53 \/ (e = -53 /\ Zpos m <= 6305039478318694).
Proof.
  unfold float_le, SFleb, lit_0_7, SFcompare.
  destruct (Z.compare_spec e (-53)) as [He|He|He].
  - subst e. rewrite compare_cont_Z.
    destruct (Z.compare_spec (Zpos m) 6305039478318694) as [Hm|Hm|Hm].
    + split; [intros _; right; split; [reflexivity|lia] | reflexivity].
    + split; [intros _; right; split; [reflexivity|lia] | reflexivity].
    + split; [discriminate|]. intros [H|[_ H]]; exfalso; lia.
  - split; [intros _; left; exact He | reflexivity].
  - split; [discriminate|]. intros [H|[H _]]; exfalso; lia.
Qed.

Lemma Qle_frac (a b : Z) (p q : positive) :
  (a # p <= b # q)%Q <-> a * Zpos q <= b * Zpos p.
Proof. reflexivity. Qed.

Lemma pow2_52 : 2 ^ 52 = 4503599627370496. Proof. reflexivity. Qed.
Lemma pow2_53 : 2 ^ 53 = 9007199254740992. Proof. reflexivity. Qed.
Lemma pow2_54 : 2 ^ 54 = 18014398509481984. Proof. reflexivity. Qed.
Lemma pow2_55 : 2 ^ 55 = 36028797018963968. Proof. reflexivity. Qed.
Lemma pow2_56 : 2 ^ 56 = 72057594037927936. Proof. reflexivity. Qed.

Lemma SF2Q_neg_exponent (s : bool) (m k : positive) :
  SF2Q (S754_finite s m (Zneg k)) = Some (cond_Zopp s (Zpos m) # 2 ^ k).
Proof. reflexivity. Qed.

(** On positive binary64 values the two comparisons of line 36 decide
    2/10 <= x <= 7/10 over the rationals. *)
Lemma positive_in_range (m : positive) (e : Z) :
  is_binary64 (S754_finite false m e) ->
  in_recommended_range (S754_finite false m e) <->
  (-55 < e \/ (e = -55 /\ 7205759403792794 <= Zpos m))
  /\ (e < -53 \/ (e = -53 /\ Zpos m <= 6305039478318694)).
Proof.
  intros Hv. apply binary64_mantissa in Hv as (He & Hhi & Hlo).
  rewrite pow2_53 in Hhi. rewrite pow2_52 in Hlo.
  unfold in_recommended_range.
  destruct e as [|k|k].
  - split; [|lia]. intros (q & [= <-] & _ & Hq). exfalso.
    unfold inject_Z in Hq. apply (proj1 (Qle_frac _ _ _ _)) in Hq. cbn in Hq. lia.
  - split; [|lia]. intros (q & [= <-] & _ & Hq). exfalso.
    unfold inject_Z in Hq. apply (proj1 (Qle_frac _ _ _ _)) in Hq.
    cbn [cond_Zopp] in Hq. rewrite <- Pos2Z.inj_mul in Hq. lia.
  - rewrite SF2Q_neg_exponent. cbn [cond_Zopp].
    assert (0 < 2 ^ Zpos k) as Hpos by (apply Z.pow_pos_nonneg; lia).
    split.
    + intros (q & [= <-] & Hq1 & Hq2).
      apply (proj1 (Qle_frac _ _ _ _)) in Hq1.
      apply (proj1 (Qle_frac _ _ _ _)) in Hq2.
      rewrite Pos2Z.inj_pow in Hq1, Hq2.
      destruct (Z.lt_trichotomy (Zneg k) (-55)) as [Hlt|[Heq|Hgt]].
      * exfalso.
        assert (2 ^ 56 <= 2 ^ Zpos k) as Hp by (apply Z.pow_le_mono_r; lia).
        rewrite pow2_56 in Hp. lia.
      * injection Heq as ->. rewrite pow2_55 in Hq1.
        split; [right; split; [reflexivity|lia] | left; lia].
      * split; [left; exact Hgt|].
        destruct (Z.lt_trichotomy (Zneg k) (-53)) as [Hlt'|[Heq'|Hgt']].
        -- left; exact Hlt'.
        -- injection Heq' as ->. rewrite pow2_53 in Hq2.
           right; split; [reflexivity|lia].
        -- exfalso.
           assert (2 ^ Zpos k <= 2 ^ 52) as Hp by (apply Z.pow_le_mono_r; lia).
           rewrite pow2_52 in Hp.
           assert (4503599627370496 <= Zpos m) by (apply Hlo; lia). lia.
    + intros [Hge Hle]. eexists. split; [reflexivity|].
      rewrite !Qle_frac, Pos2Z.inj_pow.
      assert (4503599627370496 <= Zpos m) as Hn by (apply Hlo; lia).
      destruct Hge as [Hgt|[Heq Hm]]; destruct Hle as [Hlt|[Heq' Hm']].
      * assert (Zneg k = -54) as Hk by lia. injection Hk as ->.
        rewrite pow2_54. lia.
      * injection Heq' as ->. rewrite pow2_53. lia.
      * injection Heq as ->. rewrite pow2_55. lia.
      * exfalso. lia.
Qed.

(** Negative values are below the range. *)
Lemma negative_not_in_range (m : positive) (e : Z) :
  ~ in_recommended_range (S754_finite true m e).
Proof.
  intros (q & Hq & Hlo & _). destruct e as [|k|k]; injection Hq as <-.
  - unfold inject_Z in Hlo. apply (proj1 (Qle_frac _ _ _ _)) in Hlo.
    cbn [cond_Zopp] in Hlo. lia.
  - unfold inject_Z in Hlo. apply (proj1 (Qle_frac _ _ _ _)) in Hlo.
    cbn [cond_Zopp] in Hlo. rewrite Z.mul_opp_l in Hlo.
    rewrite <- Pos2Z.inj_mul in Hlo. lia.
  - apply (proj1 (Qle_frac _ _ _ _)) in Hlo. cbn [cond_Zopp] in Hlo. lia.
Qed.

(** The test of line 36 on every binary64 value, NaN and the infinities
    included: it holds exactly on the values between 2/10 and 7/10. *)
Lemma range_test_correct (f : pyfloat) :
  is_binary64 f ->
  float_le lit_0_2 f && float_le f lit_0_7 = true <-> in_recommended_range f.
Proof.
  intros Hv. destruct f as [s|s| |s m e].
  - split; [discriminate|]. intros (q & [= <-] & Hq & _). exfalso.
    apply (proj1 (Qle_frac _ _ _ _)) in Hq. lia.
  - split; [destruct s; discriminate|]. intros (q & Hq & _). discriminate Hq.
  - split; [discriminate|]. intros (q & Hq & _). discriminate Hq.
  - destruct s.
    + split; [discriminate|]. intros H. now apply negative_not_in_range in H.
    + rewrite andb_true_iff, float_le_lit_0_2, float_le_lit_0_7.
      symmetry. now apply positive_in_range.
Qed.

(** The two literals are binary64 values, each within half a unit in the
    last place of the decimal it is written as. *)
Lemma lit_0_2_nearest :
  is_binary64 lit_0_2
  /\ exists q, SF2Q lit_0_2 = Some q
       /\ ((1 # 5) - (1 # 2 ^ 56) <= q)%Q /\ (q <= (1 # 5) + (1 # 2 ^ 56))%Q.
Proof.
  split; [reflexivity|]. eexists. split; [reflexivity|].
  split; vm_compute; discriminate.
Qed.

Lemma lit_0_7_nearest :
  is_binary64 lit_0_7
  /\ exists q, SF2Q lit_0_7 = Some q
       /\ ((7 # 10) - (1 # 2 ^ 54) <= q)%Q /\ (q <= (7 # 10) + (1 # 2 ^ 54))%Q.
Proof.
  split; [reflexivity|]. eexists. split; [reflexivity|].
  split; vm_compute; discriminate.
Qed.

End FloatRange.

(** ** The API surface (lines 79-86) *)

Lemma additional_apis_loop (apis acc : list string) :
  fold_left
    (fun acc api => if bool_decide (api ≠ "run") then (acc ++ [api])%list else acc)
    apis acc
  = (acc ++ filter not_run apis)%list.
Proof.
  revert acc. induction apis as [|api apis IH]; intros acc; cbn [fold_left].
  - now rewrite filter_nil, app_nil_r.
  - rewrite IH, filter_cons. unfold not_run at 2.
    destruct (decide (api ≠ "run")) as [Hne|Heq].
    + rewrite bool_decide_eq_true_2 by done. now rewrite <- app_assoc.
    + rewrite bool_decide_eq_false_2 by done. done.
Qed.

Lemma additional_apis_of_run : additional_apis_of ["run"] = None.
Proof. reflexivity. Qed.

Lemma additional_apis_of_other (apis : list string) :
  apis ≠ ["run"] -> additional_apis_of apis = Some (filter not_run apis).
Proof.
  intros Hne. unfold additional_apis_of.
  rewrite bool_decide_eq_true_2 by done.
  now rewrite additional_apis_loop.
Qed.

Lemma filter_not_run_nil (apis : list string) :
  Forall (fun api => api = "run") apis -> filter not_run apis = [].
Proof.
  induction 1 as [|api apis Heq _ IH]; [done|].
  rewrite filter_cons, IH. destruct (decide (not_run api)) as [Hn|]; [|done].
  now elim Hn.
Qed.

(** What the loop keeps: the names other than "run", order preserved. *)
Lemma filter_not_run_spec (apis : list string) :
  filter not_run apis `sublist_of` apis
  /\ forall api, api ∈ filter not_run apis <-> api ≠ "run" /\ api ∈ apis.
Proof.
  split; [apply sublist_filter|]. intros api.
  exact (list_elem_of_filter not_run apis api).
Qed.

Example additional_apis_run_info :
  additional_apis_of ["run"; "info"] = Some ["info"].
Proof. reflexivity. Qed.

Example additional_apis_info_run_predict :
  additional_apis_of ["info"; "run"; "predict"] = Some ["info"; "predict"].
Proof. reflexivity. Qed.

Example additional_apis_none_exposed : additional_apis_of [] = Some [].
Proof. reflexivity. Qed.

(** ** The cache mode (lines 41-54) *)

Lemma cache_mode_refines (baseline local_only cloud_only both : bool) :
  resolution_of (cache_mode baseline local_only cloud_only both)
  = Spec.resolve baseline local_only cloud_only both.
Proof. now destruct local_only, cloud_only, both. Qed.

Example cache_mode_local_only (baseline : bool) :
  cache_mode baseline true false false = (Some LOCAL_ONLY, true, "Local only").
Proof. reflexivity. Qed.

Example cache_mode_local_then_cloud (baseline : bool) :
  cache_mode baseline true true false = (Some CLOUD_ONLY, true, "Cloud only").
Proof. reflexivity. Qed.

Example cache_mode_cloud_only (baseline : bool) :
  cache_mode baseline false true false = (Some CLOUD_ONLY, baseline, "Cloud only").
Proof. reflexivity. Qed.

Lemma source_of_inj (a b : option OutputSource) : source_of a = source_of b -> a = b.
Proof. destruct a as [[]|], b as [[]|]; (reflexivity || discriminate). Qed.

(** ** The validation (lines 35-39) *)

Lemma check_cases (frac : option pyfloat) :
  check_max_cache_memory_frac frac = Returned tt
  \/ check_max_cache_memory_frac frac = Raised ConfigurationError.
Proof.
  destruct frac as [f|]; cbn; [|now left].
  destruct (float_le lit_0_2 f && float_le f lit_0_7); cbn; [now left | now right].
Qed.

Lemma check_accepts (frac : option pyfloat) :
  (forall f, frac = Some f -> is_binary64 f) ->
  check_max_cache_memory_frac frac = Returned tt <->
  frac = None \/ exists f, frac = Some f /\ in_recommended_range f.
Proof.
  intros Hv. destruct frac as [f|]; cbn.
  - specialize (Hv f eq_refl). apply range_test_correct in Hv.
    destruct (float_le lit_0_2 f && float_le f lit_0_7); cbn.
    + split; [|done]. intros _. right. exists f. split; [done|]. now apply Hv.
    + split; [discriminate|]. intros [?|(f' & [= <-] & Hin)]; [discriminate|].
      apply Hv in Hin. discriminate.
  - split; [now left | done].
Qed.

Example check_absent : check_max_cache_memory_frac None = Returned tt.
Proof. reflexivity. Qed.

Example check_lower_bound : check_max_cache_memory_frac (Some lit_0_2) = Returned tt.
Proof. reflexivity. Qed.

Example check_upper_bound : check_max_cache_memory_frac (Some lit_0_7) = Returned tt.
Proof. reflexivity. Qed.

(** The binary64 neighbours just outside the two bounds. *)
Example check_just_below :
  check_max_cache_memory_frac (Some (S754_finite false 7205759403792793 (-55)))
  = Raised ConfigurationError.
Proof. reflexivity. Qed.

Example check_just_above :
  check_max_cache_memory_frac (Some (S754_finite false 6305039478318695 (-53)))
  = Raised ConfigurationError.
Proof. reflexivity. Qed.

Example check_nan : check_max_cache_memory_frac (Some S754_nan) = Raised ConfigurationError.
Proof. reflexivity. Qed.

Example check_infinity :
  check_max_cache_memory_frac (Some (S754_infinity false)) = Raised ConfigurationError.
Proof. reflexivity. Qed.

(** ** Running [serve] *)

Lemma calls_of_app (w : World) (new : list Event) (r : gmap string string) :
  calls_of w {| trace := (trace w ++ new)%list; sessions := r |} = new.
Proof. unfold calls_of. cbn. apply drop_app_length. Qed.

Lemma calls_of_same (w : World) : calls_of w w = [].
Proof. unfold calls_of. apply drop_all. Qed.

Ltac unfold_serve :=
  unfold serve, bind, step, call, raise, ret, register_model_session.

Ltac norm_world :=
  cbn [trace sessions fst snd] in *;
  rewrite <- ?app_assoc in *; cbn [app] in *;
  rewrite ?calls_of_app, ?calls_of_same in *.

(** [H : ev ∈ [ev1; ...; evn]]: one goal per entry that [ev] can be. *)
Ltac elem_of_calls H :=
  rewrite ?elem_of_cons, ?elem_of_nil in H;
  repeat (destruct H as [H|H]; try discriminate H); try contradiction.

Section ServeCall.

Context (C : Collaborators).
Context (model : string) (port : option Z) (track : bool)
        (tracking_use_case : string).
Context (enable_local_cache local_cache_only cloud_cache_only cache_only : bool).
Context (max_cache_memory_frac : option pyfloat).
Context (w : World).

Local Abbreviation resolved :=
  (cache_mode enable_local_cache local_cache_only cloud_cache_only cache_only).
Local Abbreviation the_call :=
  (serve C model port track tracking_use_case enable_local_cache local_cache_only
     cloud_cache_only cache_only max_cache_memory_frac w).
Local Abbreviation track_runs := (if track then Some tracking_use_case else None).

(** A rejected request leaves the world as it was. *)
Lemma serve_rejected e :
  check_max_cache_memory_frac max_cache_memory_frac = Raised e ->
  the_call = (Raised e, w).
Proof.
  intros Hc. unfold_serve. now rewrite Hc.
Qed.

(** An accepted request reaches the [ErsiliaModel] constructor, called once
    and with the resolved cache mode. *)
Lemma serve_accepted output_source cache cache_status :
  check_max_cache_memory_frac max_cache_memory_frac = Returned tt ->
  resolved = (output_source, cache, cache_status) ->
  exists rest,
    calls_of w the_call.2 =
      EvErsiliaModel model output_source port cache max_cache_memory_frac :: rest
    /\ Forall (fun ev => is_construct_event ev = false) rest.
Proof.
  intros Hc Hr. unfold_serve. rewrite Hc, Hr. cbn.
  destruct (ErsiliaModel _ _ _ _ _ _) as [mdl0|e]; cbn.
  2:{ norm_world. eexists; split; [reflexivity | repeat constructor]. }
  destruct (SetupRedis _ _ _) as [rs|e]; cbn.
  2:{ norm_world. eexists; split; [reflexivity | repeat constructor]. }
  destruct (is_valid _ _) as [[|]|e]; cbn.
  2,3: norm_world; eexists; (split; [reflexivity | repeat constructor]).
  destruct (mdl_serve _ _ _) as [mdl|e]; cbn.
  2:{ norm_world. eexists; split; [reflexivity | repeat constructor]. }
  destruct (url mdl) as [u|]; cbn.
  2:{ norm_world. eexists; split; [reflexivity | repeat constructor]. }
  destruct (get_apis _ _) as [apis|e]; cbn.
  2:{ norm_world. eexists; split; [reflexivity | repeat constructor]. }
  destruct (is_amenable _ _) as [am|e]; cbn.
  all: norm_world; eexists; (split; [reflexivity | repeat constructor]).
Qed.

(** What a call that returns went through. *)
Lemma serve_returned_inv d w' :
  the_call = (Returned d, w') ->
  exists output_source cache cache_status mdl0 rs mdl u apis amenable,
    check_max_cache_memory_frac max_cache_memory_frac = Returned tt
    /\ resolved = (output_source, cache, cache_status)
    /\ ErsiliaModel C model output_source port cache max_cache_memory_frac
         = Returned mdl0
    /\ SetupRedis C cache max_cache_memory_frac = Returned rs
    /\ is_valid C mdl0 = Returned true
    /\ mdl_serve C mdl0 track_runs = Returned mdl
    /\ url mdl = Some u
    /\ get_apis C mdl = Returned apis
    /\ is_amenable C rs = Returned amenable
    /\ d = py_dict
             [ ("Model ID", VStr (model_id mdl));
               ("URL", VStr u);
               ("SRV", VSrv (scl mdl));
               ("Session", VStr (session_dir mdl));
               ("Cache Fetching Mode", VStr cache_status);
               ("Local Cache", VStr (if amenable.1 then "Enabled" else "Disabled"));
               ("Tracking", VStr (if track then "Enabled" else "Disabled"));
               ("Default API", VStr "run");
               ("Additional APIs", opt_list (additional_apis_of apis)) ]
    /\ calls_of w w' =
         [ EvErsiliaModel model output_source port cache max_cache_memory_frac;
           EvSetupRedis cache max_cache_memory_frac;
           EvIsValid mdl0;
           EvServe mdl0 track_runs;
           EvRegister (model_id mdl) (session_dir mdl);
           EvGetApis mdl;
           EvIsAmenable rs ]
    /\ sessions w' = <[model_id mdl := session_dir mdl]> (sessions w).
Proof.
  unfold_serve.
  destruct (check_max_cache_memory_frac _) as [[]|e]; [|discriminate].
  destruct resolved as [[output_source cache] cache_status]. cbn.
  destruct (ErsiliaModel _ _ _ _ _ _) as [mdl0|e] eqn:Hm; [|discriminate]. cbn.
  destruct (SetupRedis _ _ _) as [rs|e] eqn:Hs; [|discriminate]. cbn.
  destruct (is_valid _ _) as [[|]|e] eqn:Hv; [| discriminate | discriminate]. cbn.
  destruct (mdl_serve _ _ _) as [mdl|e] eqn:Hsv; [|discriminate]. cbn.
  destruct (url mdl) as [u|] eqn:Hu; [|discriminate]. cbn.
  destruct (get_apis _ _) as [apis|e] eqn:Ha; [|discriminate]. cbn.
  destruct (is_amenable _ _) as [am|e] eqn:Hr; [|discriminate]. cbn.
  intros [= <- <-].
  exists output_source, cache, cache_status, mdl0, rs, mdl, u, apis, am.
  norm_world. repeat split; done.
Qed.

(** With every collaborator answering and a URL on the served handle,
    [serve] returns. *)
Lemma serve_returns output_source cache cache_status mdl0 rs mdl u apis amenable :
  check_max_cache_memory_frac max_cache_memory_frac = Returned tt ->
  resolved = (output_source, cache, cache_status) ->
  ErsiliaModel C model output_source port cache max_cache_memory_frac
    = Returned mdl0 ->
  SetupRedis C cache max_cache_memory_frac = Returned rs ->
  is_valid C mdl0 = Returned true ->
  mdl_serve C mdl0 track_runs = Returned mdl ->
  url mdl = Some u ->
  get_apis C mdl = Returned apis ->
  is_amenable C rs = Returned amenable ->
  exists d w', the_call = (Returned d, w').
Proof.
  intros Hc Hr Hm Hs Hv Hsv Hu Ha Ham. unfold_serve.
  rewrite Hc, Hr. cbn. rewrite Hm. cbn. rewrite Hs. cbn. rewrite Hv. cbn.
  rewrite Hsv. cbn. rewrite Hu. cbn. rewrite Ha. cbn. rewrite Ham. cbn.
  now eexists _, _.
Qed.

(** The handle of a call that returns is the one its calls name. *)
Lemma serve_returned_calls d w' mdl :
  the_call = (Returned d, w') ->
  EvGetApis mdl ∈ calls_of w w' ->
  exists u apis,
    url mdl = Some u
    /\ get_apis C mdl = Returned apis
    /\ d !! "Model ID" = Some (VStr (model_id mdl))
    /\ d !! "URL" = Some (VStr u)
    /\ d !! "SRV" = Some (VSrv (scl mdl))
    /\ d !! "Session" = Some (VStr (session_dir mdl))
    /\ d !! "Additional APIs" = Some (opt_list (additional_apis_of apis)).
Proof.
  intros Hret Hin.
  destruct (serve_returned_inv d w' Hret)
    as (src & cache & status & mdl0 & rs & mdl' & u & apis & am &
        _ & _ & _ & _ & _ & _ & Hu & Ha & _ & -> & Hcalls & _).
  rewrite Hcalls in Hin. elem_of_calls Hin. injection Hin as ->.
  exists u, apis. repeat split; done.
Qed.

(** C1: the cache mode computed by lines 41-54 is the one that the four
    steps of section 4.2 give, applied in their order with each true guard
    overwriting what came before; with the three toggles true it is
    CACHE_ONLY (hybrid), enabled, "Hybrid (local & cloud)", and with none
    it is no source, the caller's flag, "Disabled".  Setting several
    toggles raises nothing: an accepted request always reaches the
    [ErsiliaModel] constructor with that mode, and a call that returns
    reports its label under "Cache Fetching Mode". *)
Theorem cache_mode_last_write_wins output_source cache cache_status :
  resolved = (output_source, cache, cache_status) ->
  Spec.resolve enable_local_cache local_cache_only cloud_cache_only cache_only
    = {| Spec.source := source_of output_source;
         Spec.local_cache_enabled := cache;
         Spec.status_label := cache_status |}
  /\ (local_cache_only = true -> cloud_cache_only = true -> cache_only = true ->
      (output_source, cache, cache_status)
        = (Some CACHE_ONLY, true, "Hybrid (local & cloud)"))
  /\ (local_cache_only = false -> cloud_cache_only = false -> cache_only = false ->
      (output_source, cache, cache_status) = (None, enable_local_cache, "Disabled"))
  /\ (check_max_cache_memory_frac max_cache_memory_frac = Returned tt ->
      exists rest,
        calls_of w the_call.2 =
          EvErsiliaModel model output_source port cache max_cache_memory_frac
            :: rest)
  /\ (forall d w', the_call = (Returned d, w') ->
      d !! "Cache Fetching Mode" = Some (VStr cache_status)).
Proof.
  intros Hr. split; [|split; [|split; [|split]]].
  - rewrite <- cache_mode_refines, Hr. reflexivity.
  - intros -> -> ->. now rewrite <- Hr.
  - intros -> -> ->. now rewrite <- Hr.
  - intros Hc. destruct (serve_accepted _ _ _ Hc Hr) as (rest & Hcalls & _).
    now exists rest.
  - intros d w' Hret.
    destruct (serve_returned_inv d w' Hret)
      as (? & ? & ? & ? & ? & ? & ? & ? & ? &
          _ & Hr' & _ & _ & _ & _ & _ & _ & _ & -> & _).
    rewrite Hr in Hr'. injection Hr' as <- <- <-. reflexivity.
Qed.

(** C2: on a binary64 fraction, or none, the validation of lines 35-39
    passes exactly when the fraction is absent or lies between 2/10 and
    7/10, bounds included; otherwise [serve] raises the error whose
    message gives the recommended range (0.2–0.7), and that error with an
    untouched world arises in no other way. *)
Theorem serve_validation :
  (forall f, max_cache_memory_frac = Some f -> is_binary64 f) ->
  (check_max_cache_memory_frac max_cache_memory_frac = Returned tt <->
   max_cache_memory_frac = None
   \/ exists f, max_cache_memory_frac = Some f /\ in_recommended_range f)
  /\ (the_call = (Raised ConfigurationError, w) <->
      ~ (max_cache_memory_frac = None
         \/ exists f, max_cache_memory_frac = Some f /\ in_recommended_range f))
  /\ (check_max_cache_memory_frac max_cache_memory_frac = Returned tt ->
      exists ev rest,
        calls_of w the_call.2 = ev :: rest /\ is_construct_event ev = true)
  /\ exn_class ConfigurationError = "RuntimeError"
  /\ exists pre post,
       exn_msg ConfigurationError
       = pre +:+ "outside of recommended range (0.2–0.7)" +:+ post.
Proof.
  intros Hv. pose proof (check_accepts _ Hv) as Hacc.
  assert (check_max_cache_memory_frac max_cache_memory_frac = Returned tt ->
          exists ev rest,
            calls_of w the_call.2 = ev :: rest /\ is_construct_event ev = true)
    as Hgo.
  { intros Hc. destruct resolved as [[src cache] status] eqn:Hr.
    destruct (serve_accepted _ _ _ Hc Hr) as (rest & Hcalls & _).
    eexists _, rest. split; [exact Hcalls | reflexivity]. }
  split; [exact Hacc|]. split; [|split; [exact Hgo|split; [reflexivity|]]].
  - rewrite <- Hacc. split.
    + intros Hcall Hc. destruct (Hgo Hc) as (ev & rest & Hcalls & _).
      rewrite Hcall in Hcalls. cbn [snd] in Hcalls.
      rewrite calls_of_same in Hcalls. discriminate.
    + intros Hn. destruct (check_cases max_cache_memory_frac) as [Hc|Hc].
      * now elim Hn.
      * now apply serve_rejected.
  - exists "Maximum fraction of memory to use by Redis for caching is ", ".".
    reflexivity.
Qed.

(** C8: a fraction that is present and outside the range makes [serve]
    raise the range error with the world exactly as it was: no call to
    [ErsiliaModel], to [SetupRedis], to [mdl.serve] or to
    [register_model_session] was made, and the registry is unchanged. *)
Theorem serve_out_of_range_no_effect f :
  max_cache_memory_frac = Some f ->
  is_binary64 f ->
  ~ in_recommended_range f ->
  the_call = (Raised ConfigurationError, w)
  /\ the_call.2 = w
  /\ calls_of w the_call.2 = []
  /\ Forall (fun ev => is_construct_event ev = false
                      /\ is_configure_event ev = false
                      /\ is_serve_event ev = false
                      /\ is_register_event ev = false)
       (calls_of w the_call.2)
  /\ sessions the_call.2 = sessions w.
Proof.
  intros Hf Hv Hout.
  assert (the_call = (Raised ConfigurationError, w)) as Hcall.
  { apply serve_rejected. rewrite Hf. cbn.
    destruct (float_le lit_0_2 f && float_le f lit_0_7) eqn:Ht; [|reflexivity].
    elim Hout. now apply range_test_correct. }
  rewrite Hcall. cbn [snd]. rewrite calls_of_same.
  repeat split. constructor.
Qed.

(** C4 (amended): when the handle built for the request answers False to
    [is_valid], [serve] raises the model-not-found error naming the
    handle's [model_id] (the requested identifier whenever the handle
    keeps it); [mdl.serve] is not called, nothing is registered. *)
Theorem serve_invalid_model mdl0 :
  EvIsValid mdl0 ∈ calls_of w the_call.2 ->
  is_valid C mdl0 = Returned false ->
  the_call.1 = Raised (ModelNotFoundError (model_id mdl0))
  /\ (model_id mdl0 = model -> the_call.1 = Raised (ModelNotFoundError model))
  /\ Forall (fun ev => is_serve_event ev = false /\ is_register_event ev = false)
       (calls_of w the_call.2)
  /\ sessions the_call.2 = sessions w.
Proof.
  unfold_serve.
  destruct (cache_mode _ _ _ _) as [[output_source cache] cache_status].
  intros Hin Hv. revert Hin.
  destruct (check_max_cache_memory_frac _) as [[]|e]; cbn.
  2:{ norm_world. intros Hin. elem_of_calls Hin. }
  destruct (ErsiliaModel _ _ _ _ _ _) as [m0|e]; cbn.
  2:{ norm_world. intros Hin. elem_of_calls Hin. }
  destruct (SetupRedis _ _ _) as [rs|e]; cbn.
  2:{ norm_world. intros Hin. elem_of_calls Hin. }
  destruct (is_valid C m0) as [[|]|e] eqn:Hv'; cbn.
  3:{ norm_world. intros Hin. elem_of_calls Hin. injection Hin as ->. congruence. }
  2:{ norm_world. intros Hin. elem_of_calls Hin. injection Hin as ->.
      split; [reflexivity|]. split; [now intros ->|].
      split; [repeat constructor | reflexivity]. }
  destruct (mdl_serve C m0 _) as [m|e]; cbn.
  2:{ norm_world. intros Hin. elem_of_calls Hin. injection Hin as ->. congruence. }
  destruct (url m) as [u|]; cbn.
  2:{ norm_world. intros Hin. elem_of_calls Hin. injection Hin as ->. congruence. }
  destruct (get_apis _ _) as [apis|e]; cbn.
  2:{ norm_world. intros Hin. elem_of_calls Hin. injection Hin as ->. congruence. }
  destruct (is_amenable _ _) as [am|e]; cbn.
  all: norm_world; intros Hin; elem_of_calls Hin; injection Hin as ->; congruence.
Qed.

(** C3: when [mdl.serve] returns and the handle then has no URL, [serve]
    raises the no-URL error; it returns no result, does not call
    [register_model_session], and leaves the registry as it was. *)
Theorem serve_without_url mdl0 sent mdl :
  EvServe mdl0 sent ∈ calls_of w the_call.2 ->
  mdl_serve C mdl0 sent = Returned mdl ->
  url mdl = None ->
  the_call.1 = Raised ServeFailedError
  /\ (forall d, the_call.1 ≠ Returned d)
  /\ Forall (fun ev => is_register_event ev = false) (calls_of w the_call.2)
  /\ sessions the_call.2 = sessions w.
Proof.
  unfold_serve.
  destruct (cache_mode _ _ _ _) as [[output_source cache] cache_status].
  intros Hin Hsv Hu. revert Hin.
  destruct (check_max_cache_memory_frac _) as [[]|e]; cbn.
  2:{ norm_world. intros Hin. elem_of_calls Hin. }
  destruct (ErsiliaModel _ _ _ _ _ _) as [m0|e]; cbn.
  2:{ norm_world. intros Hin. elem_of_calls Hin. }
  destruct (SetupRedis _ _ _) as [rs|e]; cbn.
  2:{ norm_world. intros Hin. elem_of_calls Hin. }
  destruct (is_valid _ _) as [[|]|e]; cbn.
  2,3: norm_world; intros Hin; elem_of_calls Hin.
  destruct (mdl_serve C m0 _) as [m|e] eqn:Hsv'; cbn.
  2:{ norm_world. intros Hin. elem_of_calls Hin. injection Hin as -> ->.
      congruence. }
  destruct (url m) as [u|] eqn:Hu'; cbn.
  - destruct (get_apis _ _) as [apis|e]; cbn.
    2:{ norm_world. intros Hin. elem_of_calls Hin. injection Hin as -> ->.
        congruence. }
    destruct (is_amenable _ _) as [am|e]; cbn.
    all: norm_world; intros Hin; elem_of_calls Hin; injection Hin as -> ->;
      congruence.
  - norm_world. intros _. repeat split; try done.
    repeat constructor.
Qed.

(** C5: in the result of a call that returns, "Default API" is "run";
    when the list answered by [get_apis] is exactly ["run"],
    "Additional APIs" is None, and otherwise it is the list of the names
    other than "run", in their order. *)
Theorem serve_reports_additional_apis d w' mdl apis :
  the_call = (Returned d, w') ->
  EvGetApis mdl ∈ calls_of w w' ->
  get_apis C mdl = Returned apis ->
  d !! "Default API" = Some (VStr "run")
  /\ (apis = ["run"] -> d !! "Additional APIs" = Some VNone)
  /\ (apis ≠ ["run"] ->
      d !! "Additional APIs" = Some (VList (filter not_run apis))).
Proof.
  intros Hret Hin Ha.
  destruct (serve_returned_calls d w' mdl Hret Hin)
    as (u & apis' & _ & Ha' & _ & _ & _ & _ & Hadd).
  rewrite Ha in Ha'. injection Ha' as <-.
  split; [|split].
  - destruct (serve_returned_inv d w' Hret)
      as (? & ? & ? & ? & ? & ? & ? & ? & ? &
          _ & _ & _ & _ & _ & _ & _ & _ & _ & -> & _).
    reflexivity.
  - intros ->. now rewrite Hadd.
  - intros Hne. now rewrite Hadd, additional_apis_of_other.
Qed.

(** C9: when the list answered by [get_apis] is not exactly ["run"] yet
    holds nothing but "run" (as ["run"; "run"] does), "Additional APIs"
    is the empty list, which is not None. *)
Theorem serve_empty_additional_apis d w' mdl apis :
  the_call = (Returned d, w') ->
  EvGetApis mdl ∈ calls_of w w' ->
  get_apis C mdl = Returned apis ->
  apis ≠ ["run"] ->
  Forall (fun api => api = "run") apis ->
  d !! "Additional APIs" = Some (VList [])
  /\ d !! "Additional APIs" ≠ Some VNone.
Proof.
  intros Hret Hin Ha Hne Hall.
  destruct (serve_returned_calls d w' mdl Hret Hin)
    as (u & apis' & _ & Ha' & _ & _ & _ & _ & Hadd).
  rewrite Ha in Ha'. injection Ha' as <-.
  rewrite Hadd, additional_apis_of_other, filter_not_run_nil by done.
  split; [reflexivity | discriminate].
Qed.

(** C6: in the result of a call that returns, "Tracking" is "Enabled"
    exactly when [track] is true, whatever the tracking use case; the call
    invokes [mdl.serve] once, passing the use case as given when [track]
    is true and None when it is false. *)
Theorem serve_tracking d w' :
  the_call = (Returned d, w') ->
  (d !! "Tracking" = Some (VStr "Enabled") <-> track = true)
  /\ d !! "Tracking" = Some (VStr (if track then "Enabled" else "Disabled"))
  /\ exists mdl0 sent,
       filter (fun ev => is_serve_event ev = true) (calls_of w w')
         = [EvServe mdl0 sent]
       /\ (sent = Some tracking_use_case <-> track = true)
       /\ (sent = None <-> track = false).
Proof.
  intros Hret.
  destruct (serve_returned_inv d w' Hret)
    as (src & cache & status & mdl0 & rs & mdl & u & apis & am &
        _ & _ & _ & _ & _ & _ & _ & _ & _ & -> & -> & _).
  split; [|split; [reflexivity|]].
  - change (Some (VStr (if track then "Enabled" else "Disabled"))
            = Some (VStr "Enabled") <-> track = true).
    destruct track; split; (done || discriminate).
  - exists mdl0, track_runs. split; [reflexivity|].
    destruct track; split; split; (done || discriminate).
Qed.

(** C7: in the result of a call that returns, "Local Cache" is "Enabled"
    exactly when the configurator's [_is_amenable] answers true, while
    "Cache Fetching Mode" carries the resolved label; the resolved flag
    plays no part, and a call with local caching resolved to enabled and
    Redis not amenable returns "Local only" next to "Disabled". *)
Theorem serve_local_cache d w' rs amenable output_source cache cache_status :
  the_call = (Returned d, w') ->
  EvIsAmenable rs ∈ calls_of w w' ->
  is_amenable C rs = Returned amenable ->
  resolved = (output_source, cache, cache_status) ->
  (d !! "Local Cache" = Some (VStr "Enabled") <-> amenable.1 = true)
  /\ d !! "Local Cache" = Some (VStr (if amenable.1 then "Enabled" else "Disabled"))
  /\ d !! "Cache Fetching Mode" = Some (VStr cache_status)
  /\ exists d1 w1,
       sample_call ["run"] = (Returned d1, w1)
       /\ cache_mode true true false false = (Some LOCAL_ONLY, true, "Local only")
       /\ d1 !! "Cache Fetching Mode" = Some (VStr "Local only")
       /\ d1 !! "Local Cache" = Some (VStr "Disabled").
Proof.
  intros Hret Hin Ham Hr.
  destruct (serve_returned_inv d w' Hret)
    as (src & cache' & status & mdl0 & rs' & mdl & u & apis & am &
        _ & Hr' & _ & _ & _ & _ & _ & _ & Ham' & -> & Hcalls & _).
  rewrite Hr in Hr'. injection Hr' as <- <- <-.
  rewrite Hcalls in Hin. elem_of_calls Hin. injection Hin as ->.
  rewrite Ham in Ham'. injection Ham' as <-.
  split; [|split; [reflexivity|split; [reflexivity|]]].
  - change (Some (VStr (if amenable.1 then "Enabled" else "Disabled"))
            = Some (VStr "Enabled") <-> amenable.1 = true).
    destruct amenable.1; split; (done || discriminate).
  - exists (result_of (sample_call ["run"])), (sample_call ["run"]).2.
    split; [reflexivity|]. split; [reflexivity|]. split; reflexivity.
Qed.

(** C10: a call that returns gives a dict whose keys are exactly the nine
    of [result_keys]; "Additional APIs" is always among them, bound to
    None when the list answered by [get_apis] is exactly ["run"]. *)
Theorem serve_result_keys d w' :
  the_call = (Returned d, w') ->
  dom d = list_to_set result_keys
  /\ NoDup result_keys
  /\ length result_keys = 9
  /\ size d = 9
  /\ is_Some (d !! "Additional APIs")
  /\ (forall mdl, EvGetApis mdl ∈ calls_of w w' ->
      get_apis C mdl = Returned ["run"] ->
      d !! "Additional APIs" = Some VNone).
Proof.
  intros Hret.
  assert (NoDup result_keys) as Hnd by compute_done.
  destruct (serve_returned_inv d w' Hret)
    as (src & cache & status & mdl0 & rs & mdl & u & apis & am &
        _ & _ & _ & _ & _ & _ & _ & Ha & _ & Hd & Hcalls & _).
  assert (dom d = list_to_set result_keys) as Hdom.
  { rewrite Hd. unfold py_dict, result_keys. cbn [fold_left fst snd list_to_set].
    rewrite !dom_insert_L, dom_empty_L. apply set_eq. intros k.
    rewrite !elem_of_union, !elem_of_singleton, elem_of_empty. tauto. }
  split; [exact Hdom|]. split; [exact Hnd|]. split; [reflexivity|].
  split; [|split].
  - rewrite <- size_dom, Hdom, size_list_to_set by exact Hnd. reflexivity.
  - rewrite Hd. eexists. reflexivity.
  - intros mdl' Hin Ha'. rewrite Hcalls in Hin. elem_of_calls Hin.
    injection Hin as ->. rewrite Ha in Ha'. injection Ha' as ->.
    rewrite Hd. reflexivity.
Qed.

End ServeCall.

(** ** The properties on sample calls *)

Ltac in_calls := unfold calls_of; cbn; repeat constructor.

Lemma sample_call_returns (apis : list string) :
  sample_call apis = (Returned (result_of (sample_call apis)), (sample_call apis).2).
Proof. reflexivity. Qed.

Lemma cache_mode_last_write_wins_witness :
  cache_mode true true false false = (Some LOCAL_ONLY, true, "Local only")
  /\ Spec.resolve true true false false
     = {| Spec.source := Spec.local_only;
          Spec.local_cache_enabled := true;
          Spec.status_label := "Local only" |}
  /\ result_of (sample_call ["run"]) !! "Cache Fetching Mode"
     = Some (VStr "Local only").
Proof.
  split; [reflexivity|].
  destruct (cache_mode_last_write_wins
              (sample_env true (Some sample_url) ["run"] false)
              "eos3b5e" None true "local" true true false false None initial_world
              (Some LOCAL_ONLY) true "Local only" eq_refl)
    as (Hspec & _ & _ & _ & Hlabel).
  split; [exact Hspec|].
  apply (Hlabel _ (sample_call ["run"]).2). reflexivity.
Defined.

Lemma serve_validation_witness :
  is_binary64 lit_0_2
  /\ frac_call lit_0_2 ≠ (Raised ConfigurationError, initial_world)
  /\ in_recommended_range lit_0_2.
Proof.
  assert (forall f, Some lit_0_2 = Some f -> is_binary64 f) as Hv.
  { intros f Hf. injection Hf as <-. reflexivity. }
  destruct (serve_validation
              (sample_env true (Some sample_url) ["run"] true)
              "eos3b5e" None false "local" true false false false
              (Some lit_0_2) initial_world Hv)
    as (Hacc & Hraise & _).
  split; [reflexivity|].
  destruct (proj1 Hacc eq_refl) as [Hnone|(f & Hf & Hin)]; [discriminate Hnone|].
  injection Hf as <-.
  split; [|exact Hin].
  intros Hcall. apply Hraise in Hcall. apply Hcall. right. now exists lit_0_2.
Defined.

Lemma serve_out_of_range_no_effect_witness :
  is_binary64 lit_0_9
  /\ ~ in_recommended_range lit_0_9
  /\ frac_call lit_0_9 = (Raised ConfigurationError, initial_world).
Proof.
  assert (~ in_recommended_range lit_0_9) as Hout.
  { intros (q & Hq & _ & Hle). injection Hq as <-.
    vm_compute in Hle. apply Hle. reflexivity. }
  split; [reflexivity|]. split; [exact Hout|].
  apply (serve_out_of_range_no_effect
           (sample_env true (Some sample_url) ["run"] true)
           "eos3b5e" None false "local" true false false false
           (Some lit_0_9) initial_world lit_0_9 eq_refl eq_refl Hout).
Defined.

(** The handle of [slug_call] holds "eos0aaa", and that is the identifier
    in the message, not the requested "my-slug". *)
Lemma slug_call_names_handle_id :
  EvIsValid (sample_handle "eos0aaa" None) ∈ calls_of initial_world slug_call.2
  /\ is_valid slug_env (sample_handle "eos0aaa" None) = Returned false
  /\ slug_call.1 = Raised (ModelNotFoundError "eos0aaa")
  /\ slug_call.1 ≠ Raised (ModelNotFoundError "my-slug").
Proof.
  split; [in_calls|]. split; [reflexivity|]. split; [reflexivity|].
  intros H. discriminate H.
Qed.

Lemma serve_invalid_model_witness :
  EvIsValid (sample_handle "eos0aaa" None) ∈ calls_of initial_world slug_call.2
  /\ slug_call.1 = Raised (ModelNotFoundError "eos0aaa")
  /\ Forall (fun ev => is_serve_event ev = false /\ is_register_event ev = false)
       (calls_of initial_world slug_call.2)
  /\ sessions slug_call.2 = ∅.
Proof.
  assert (EvIsValid (sample_handle "eos0aaa" None)
            ∈ calls_of initial_world slug_call.2) as Hin by in_calls.
  destruct (serve_invalid_model slug_env "my-slug" None false "local"
              true false false false None initial_world
              (sample_handle "eos0aaa" None) Hin eq_refl)
    as (Hraise & _ & Hcalls & Hreg).
  split; [exact Hin|]. split; [exact Hraise|]. split; [exact Hcalls | exact Hreg].
Defined.

Lemma serve_without_url_witness :
  EvServe (sample_handle "eos3b5e" None) None ∈ calls_of initial_world no_url_call.2
  /\ no_url_call.1 = Raised ServeFailedError
  /\ sessions no_url_call.2 = ∅.
Proof.
  assert (EvServe (sample_handle "eos3b5e" None) None
            ∈ calls_of initial_world no_url_call.2) as Hin by in_calls.
  destruct (serve_without_url (sample_env true None ["run"] false)
              "eos3b5e" None false "local" true false false false None initial_world
              (sample_handle "eos3b5e" None) None (sample_handle "eos3b5e" None)
              Hin eq_refl eq_refl)
    as (Hraise & _ & _ & Hreg).
  split; [exact Hin|]. split; [exact Hraise | exact Hreg].
Defined.

Lemma serve_reports_additional_apis_witness :
  EvGetApis served_handle ∈ calls_of initial_world (sample_call ["run"; "info"]).2
  /\ result_of (sample_call ["run"; "info"]) !! "Default API" = Some (VStr "run")
  /\ result_of (sample_call ["run"; "info"]) !! "Additional APIs"
     = Some (VList ["info"]).
Proof.
  assert (EvGetApis served_handle
            ∈ calls_of initial_world (sample_call ["run"; "info"]).2) as Hin
    by in_calls.
  destruct (serve_reports_additional_apis
              (sample_env true (Some sample_url) ["run"; "info"] false)
              "eos3b5e" None true "local" true true false false None initial_world
              _ _ served_handle ["run"; "info"]
              (sample_call_returns ["run"; "info"]) Hin eq_refl)
    as (Hdefault & _ & Hother).
  split; [exact Hin|]. split; [exact Hdefault|].
  apply Hother. intros H. discriminate H.
Defined.

Lemma serve_empty_additional_apis_witness :
  EvGetApis served_handle ∈ calls_of initial_world (sample_call ["run"; "run"]).2
  /\ ["run"; "run"] ≠ ["run"]
  /\ Forall (fun api => api = "run") ["run"; "run"]
  /\ result_of (sample_call ["run"; "run"]) !! "Additional APIs" = Some (VList []).
Proof.
  assert (EvGetApis served_handle
            ∈ calls_of initial_world (sample_call ["run"; "run"]).2) as Hin
    by in_calls.
  assert (["run"; "run"] ≠ ["run"]) as Hne by (intros H; discriminate H).
  assert (Forall (fun api => api = "run") ["run"; "run"]) as Hall
    by (repeat constructor).
  destruct (serve_empty_additional_apis
              (sample_env true (Some sample_url) ["run"; "run"] false)
              "eos3b5e" None true "local" true true false false None initial_world
              _ _ served_handle ["run"; "run"]
              (sample_call_returns ["run"; "run"]) Hin eq_refl Hne Hall)
    as (Hempty & _).
  split; [exact Hin|]. split; [exact Hne|]. split; [exact Hall | exact Hempty].
Defined.

Lemma serve_tracking_witness :
  result_of (sample_call ["run"]) !! "Tracking" = Some (VStr "Enabled")
  /\ filter (fun ev => is_serve_event ev = true)
       (calls_of initial_world (sample_call ["run"]).2)
     = [EvServe (sample_handle "eos3b5e" None) (Some "local")].
Proof.
  destruct (serve_tracking
              (sample_env true (Some sample_url) ["run"] false)
              "eos3b5e" None true "local" true true false false None initial_world
              _ _ (sample_call_returns ["run"]))
    as (_ & Htracking & _).
  split; [exact Htracking | reflexivity].
Defined.

Lemma serve_local_cache_witness :
  EvIsAmenable (Redis "redis") ∈ calls_of initial_world (sample_call ["run"]).2
  /\ result_of (sample_call ["run"]) !! "Local Cache" = Some (VStr "Disabled")
  /\ result_of (sample_call ["run"]) !! "Cache Fetching Mode"
     = Some (VStr "Local only").
Proof.
  assert (EvIsAmenable (Redis "redis")
            ∈ calls_of initial_world (sample_call ["run"]).2) as Hin by in_calls.
  destruct (serve_local_cache
              (sample_env true (Some sample_url) ["run"] false)
              "eos3b5e" None true "local" true true false false None initial_world
              _ _ (Redis "redis") (false, "") (Some LOCAL_ONLY) true "Local only"
              (sample_call_returns ["run"]) Hin eq_refl eq_refl)
    as (_ & Hlocal & Hmode & _).
  split; [exact Hin|]. split; [exact Hlocal | exact Hmode].
Defined.

Lemma serve_result_keys_witness :
  dom (result_of (sample_call ["run"])) = list_to_set result_keys
  /\ result_of (sample_call ["run"]) !! "Additional APIs" = Some VNone.
Proof.
  destruct (serve_result_keys
              (sample_env true (Some sample_url) ["run"] false)
              "eos3b5e" None true "local" true true false false None initial_world
              _ _ (sample_call_returns ["run"]))
    as (Hdom & _ & _ & _ & _ & Hnone).
  split; [exact Hdom|].
  apply (Hnone served_handle); [in_calls | reflexivity].
Defined.

(** * Further properties of [serve] *)

(** Every way a run can go: one goal per outcome of lines 35-95, with the
    answers of the collaborators as hypotheses. *)
Ltac serve_cases C :=
  unfold_serve;
  destruct (cache_mode _ _ _ _) as [[output_source cache] cache_status] eqn:Hmode;
  destruct (check_max_cache_memory_frac _) as [[]|e0] eqn:Hcheck; cbn;
  [ destruct (ErsiliaModel C _ _ _ _ _) as [mdl0|e0] eqn:Hctor; cbn;
    [ destruct (SetupRedis C _ _) as [rs|e0] eqn:Hredis; cbn;
      [ destruct (is_valid C mdl0) as [[|]|e0] eqn:Hvalid; cbn;
        [ destruct (mdl_serve C mdl0 _) as [mdl|e0] eqn:Hserve; cbn;
          [ destruct (url mdl) as [u|] eqn:Hurl; cbn;
            [ destruct (get_apis C mdl) as [apis|e0] eqn:Hapis; cbn;
              [ destruct (is_amenable C rs) as [am|e0] eqn:Hamen; cbn | ]
            | ]
          | ]
        | | ]
      | ]
    | ]
  | ];
  norm_world.

Section ServeRuns.

Context (C : Collaborators).
Context (model : string) (port : option Z) (track : bool)
        (tracking_use_case : string).
Context (enable_local_cache local_cache_only cloud_cache_only cache_only : bool).
Context (max_cache_memory_frac : option pyfloat).
Context (w : World).

Local Abbreviation resolved :=
  (cache_mode enable_local_cache local_cache_only cloud_cache_only cache_only).
Local Abbreviation the_call :=
  (serve C model port track tracking_use_case enable_local_cache local_cache_only
     cloud_cache_only cache_only max_cache_memory_frac w).
Local Abbreviation track_runs := (if track then Some tracking_use_case else None).


(** X2: [serve] catches nothing and raises only three errors of its own:
    when it raises, the exception is the range error, the invalid-model
    error or the no-URL error, or else it is the exception with which the
    last collaborator called answered. *)
Theorem serve_exception_origin e :
  the_call.1 = Raised e ->
  (e = ConfigurationError
   \/ (exists mid, e = ModelNotFoundError mid)
   \/ e = ServeFailedError)
  \/ exists before ev,
       calls_of w the_call.2 = (before ++ [ev])%list /\ raised_by C ev e.
Proof.
  serve_cases C; intros He; try discriminate He; injection He as <-.
  - right. exists [EvErsiliaModel model output_source port cache max_cache_memory_frac;
                   EvSetupRedis cache max_cache_memory_frac;
                   EvIsValid mdl0;
                   EvServe mdl0 track_runs;
                   EvRegister (model_id mdl) (session_dir mdl);
                   EvGetApis mdl], (EvIsAmenable rs).
    split; [reflexivity | exact Hamen].
  - right. exists [EvErsiliaModel model output_source port cache max_cache_memory_frac;
                   EvSetupRedis cache max_cache_memory_frac;
                   EvIsValid mdl0;
                   EvServe mdl0 track_runs;
                   EvRegister (model_id mdl) (session_dir mdl)], (EvGetApis mdl).
    split; [reflexivity | exact Hapis].
  - left. right. right. reflexivity.
  - right. exists [EvErsiliaModel model output_source port cache max_cache_memory_frac;
                   EvSetupRedis cache max_cache_memory_frac;
                   EvIsValid mdl0], (EvServe mdl0 track_runs).
    split; [reflexivity | exact Hserve].
  - left. right. left. now exists (model_id mdl0).
  - right. exists [EvErsiliaModel model output_source port cache max_cache_memory_frac;
                   EvSetupRedis cache max_cache_memory_frac], (EvIsValid mdl0).
    split; [reflexivity | exact Hvalid].
  - right. exists [EvErsiliaModel model output_source port cache max_cache_memory_frac],
             (EvSetupRedis cache max_cache_memory_frac).
    split; [reflexivity | exact Hredis].
  - right. exists [], (EvErsiliaModel model output_source port cache max_cache_memory_frac).
    split; [reflexivity | exact Hctor].
  - left. left. destruct (check_cases max_cache_memory_frac) as [H|H];
      rewrite H in Hcheck; [discriminate Hcheck | now injection Hcheck].
Qed.

(** X3: the constructor and [SetupRedis] are given the same cache flag and
    the same memory fraction, which is the caller's, untouched; no
    collaborator ever sees a fraction outside the range. *)
Theorem serve_passes_checked_fraction m src p c f :
  (forall x, max_cache_memory_frac = Some x -> is_binary64 x) ->
  EvErsiliaModel m src p c f ∈ calls_of w the_call.2 ->
  m = model /\ p = port /\ f = max_cache_memory_frac
  /\ (exists label, resolved = (src, c, label))
  /\ (f = None \/ exists x, f = Some x /\ in_recommended_range x)
  /\ (forall c' f', EvSetupRedis c' f' ∈ calls_of w the_call.2 -> c' = c /\ f' = f).
Proof.
  intros Hbin. pose proof (check_accepts _ Hbin) as Hacc. revert Hacc.
  serve_cases C; intros Hacc Hin; elem_of_calls Hin;
    injection Hin as -> -> -> -> ->.
  all: split; [reflexivity|]; split; [reflexivity|]; split; [reflexivity|].
  all: split; [now exists cache_status|].
  all: split; [now apply Hacc|].
  all: intros c' f' Hin'; elem_of_calls Hin'.
  all: now injection Hin' as -> ->.
Qed.

(** X4: Redis is set up before the model is checked: when the handle
    answers False to [is_valid], the run consists of the constructor call,
    the [SetupRedis] call with the resolved flag, and that check. *)
Theorem serve_invalid_after_redis h :
  EvIsValid h ∈ calls_of w the_call.2 ->
  is_valid C h = Returned false ->
  exists src cache label,
    resolved = (src, cache, label)
    /\ calls_of w the_call.2 =
         [ EvErsiliaModel model src port cache max_cache_memory_frac;
           EvSetupRedis cache max_cache_memory_frac;
           EvIsValid h ].
Proof.
  intros Hin Hv. revert Hin.
  serve_cases C; intros Hin; elem_of_calls Hin; injection Hin as ->;
    try congruence.
  now exists output_source, cache, cache_status.
Qed.

(** X5: nothing is undone: when [get_apis] or [_is_amenable] raises,
    [serve] raises the same exception, yet the session was registered
    and stays in the registry. *)
Theorem serve_late_failure_keeps_session e :
  (exists mdl, EvGetApis mdl ∈ calls_of w the_call.2 /\ get_apis C mdl = Raised e)
  \/ (exists rs, EvIsAmenable rs ∈ calls_of w the_call.2
                 /\ is_amenable C rs = Raised e) ->
  the_call.1 = Raised e
  /\ exists mid dir,
       filter (fun ev => is_register_event ev = true) (calls_of w the_call.2)
         = [EvRegister mid dir]
       /\ sessions the_call.2 = <[mid := dir]> (sessions w)
       /\ sessions the_call.2 !! mid = Some dir.
Proof.
  serve_cases C; intros [(m & Hin & Hr)|(r & Hin & Hr)]; elem_of_calls Hin.
  all: injection Hin as ->; try congruence.
  all: split; [congruence|].
  all: exists (model_id mdl), (session_dir mdl).
  all: split; [reflexivity|]; split; [reflexivity|]; apply lookup_insert_eq.
Qed.

(** X6: a call that returns registered exactly once, the pair that it
    reports under "Model ID" and "Session"; every other entry of the
    registry is as before. *)
Theorem serve_registers_what_it_reports d w' :
  the_call = (Returned d, w') ->
  exists mid dir,
    d !! "Model ID" = Some (VStr mid)
    /\ d !! "Session" = Some (VStr dir)
    /\ filter (fun ev => is_register_event ev = true) (calls_of w w')
       = [EvRegister mid dir]
    /\ sessions w' !! mid = Some dir
    /\ forall k, k ≠ mid -> sessions w' !! k = sessions w !! k.
Proof.
  intros Hret.
  destruct (serve_returned_inv C model port track tracking_use_case
              enable_local_cache local_cache_only cloud_cache_only cache_only
              max_cache_memory_frac w d w' Hret)
    as (src & cache & status & mdl0 & rs & mdl & u & apis & am &
        _ & _ & _ & _ & _ & _ & _ & _ & _ & -> & -> & ->).
  exists (model_id mdl), (session_dir mdl).
  split; [reflexivity|]. split; [reflexivity|]. split; [reflexivity|].
  split; [apply lookup_insert_eq|].
  intros k Hk. now apply lookup_insert_ne.
Qed.

(** X7: the result of a call that returns reads the handle as [mdl.serve]
    left it: "URL" is that handle's URL, a string and never None, and
    "Model ID", "SRV" and "Session" are its attributes. *)
Theorem serve_reports_served_handle d w' mdl0 sent mdl :
  the_call = (Returned d, w') ->
  EvServe mdl0 sent ∈ calls_of w w' ->
  mdl_serve C mdl0 sent = Returned mdl ->
  (exists u, url mdl = Some u /\ d !! "URL" = Some (VStr u))
  /\ d !! "URL" ≠ Some VNone
  /\ d !! "Model ID" = Some (VStr (model_id mdl))
  /\ d !! "SRV" = Some (VSrv (scl mdl))
  /\ d !! "Session" = Some (VStr (session_dir mdl)).
Proof.
  intros Hret Hin Hsv.
  destruct (serve_returned_inv C model port track tracking_use_case
              enable_local_cache local_cache_only cloud_cache_only cache_only
              max_cache_memory_frac w d w' Hret)
    as (src & cache & status & m0 & rs & m & u & apis & am &
        _ & _ & _ & _ & _ & Hsv' & Hu & _ & _ & -> & Hcalls & _).
  rewrite Hcalls in Hin. elem_of_calls Hin. injection Hin as -> ->.
  rewrite Hsv in Hsv'. injection Hsv' as <-.
  split; [exists u; split; [exact Hu | reflexivity]|].
  split; [discriminate|]. repeat split.
Qed.

(** X8: [serve] returns exactly when the fraction is accepted, every
    collaborator answers, the handle is valid and the served handle has a
    URL. *)
Theorem serve_returns_iff :
  (exists d, the_call.1 = Returned d) <->
  check_max_cache_memory_frac max_cache_memory_frac = Returned tt
  /\ exists src cache label mdl0 rs mdl u apis amenable,
       resolved = (src, cache, label)
       /\ ErsiliaModel C model src port cache max_cache_memory_frac = Returned mdl0
       /\ SetupRedis C cache max_cache_memory_frac = Returned rs
       /\ is_valid C mdl0 = Returned true
       /\ mdl_serve C mdl0 track_runs = Returned mdl
       /\ url mdl = Some u
       /\ get_apis C mdl = Returned apis
       /\ is_amenable C rs = Returned amenable.
Proof.
  split.
  - intros (d & Hd).
    assert (the_call = (Returned d, the_call.2)) as Hret
      by (rewrite <- Hd; apply surjective_pairing).
    destruct (serve_returned_inv C model port track tracking_use_case
                enable_local_cache local_cache_only cloud_cache_only cache_only
                max_cache_memory_frac w d _ Hret)
      as (src & cache & status & mdl0 & rs & mdl & u & apis & am &
          Hc & Hr & Hm & Hs & Hv & Hsv & Hu & Ha & Ham & _).
    split; [exact Hc|].
    exists src, cache, status, mdl0, rs, mdl, u, apis, am. repeat split; assumption.
  - intros (Hc & src & cache & status & mdl0 & rs & mdl & u & apis & am &
            Hr & Hm & Hs & Hv & Hsv & Hu & Ha & Ham).
    destruct (serve_returns C model port track tracking_use_case
                enable_local_cache local_cache_only cloud_cache_only cache_only
                max_cache_memory_frac w src cache status mdl0 rs mdl u apis am
                Hc Hr Hm Hs Hv Hsv Hu Ha Ham) as (d & w' & Hret).
    exists d. now rewrite Hret.
Qed.

End ServeRuns.

(** ** The parts of [serve], on their own *)

(** X9: the cache mode in closed form: [cache_only] takes precedence over
    [cloud_cache_only], which takes precedence over [local_cache_only];
    the label is fixed by the source; the cache flag passed on is the
    caller's flag or-ed with [local_cache_only] and [cache_only]. *)
Theorem cache_mode_closed_form (baseline local_only cloud_only both : bool) :
  let src := if both then Some CACHE_ONLY
             else if cloud_only then Some CLOUD_ONLY
             else if local_only then Some LOCAL_ONLY
             else None in
  cache_mode baseline local_only cloud_only both
  = (src, baseline || local_only || both, status_of_source src).
Proof. now destruct baseline, local_only, cloud_only, both. Qed.

Lemma string_length_app (a s : string) :
  String.length (a +:+ s) = String.length a + String.length s.
Proof. induction a as [|c a IH]; simpl; [reflexivity | now f_equal]. Qed.

Lemma string_app_inv_tail (a b s : string) : a +:+ s = b +:+ s -> a = b.
Proof.
  revert b. induction a as [|c a IH]; intros [|c' b] H.
  - reflexivity.
  - exfalso. apply (f_equal String.length) in H.
    rewrite !string_length_app in H. simpl in H. lia.
  - exfalso. apply (f_equal String.length) in H.
    rewrite !string_length_app in H. simpl in H. lia.
  - simpl in H. injection H as -> H. f_equal. now apply IH.
Qed.

(** X10: the three errors of [serve], all of class RuntimeError, are told
    apart by their messages whatever the model identifier, and the
    invalid-model message determines the identifier it names. *)
Theorem serve_errors_distinct (mid mid' : string) :
  ConfigurationError ≠ ServeFailedError
  /\ ModelNotFoundError mid ≠ ConfigurationError
  /\ ModelNotFoundError mid ≠ ServeFailedError
  /\ (ModelNotFoundError mid = ModelNotFoundError mid' -> mid = mid')
  /\ exn_class (ModelNotFoundError mid) = exn_class ConfigurationError
  /\ exn_class ConfigurationError = exn_class ServeFailedError.
Proof.
  split; [discriminate|]. split; [discriminate|]. split; [discriminate|].
  split; [|split; reflexivity].
  unfold ModelNotFoundError, RuntimeError, invalid_message. intros H.
  injection H as H.
  apply (string_app_inv_tail mid mid' " is not valid or not found."). exact H.
Qed.

(** X11: "Additional APIs" is None only for the list ["run"]; otherwise
    it never lists "run", keeps the order of the other names, and is the
    whole list when the model exposes no "run". *)
Theorem additional_apis_never_run (apis : list string) :
  (additional_apis_of apis = None <-> apis = ["run"])
  /\ forall l, additional_apis_of apis = Some l ->
       ("run" ∉ l)
       /\ (l `sublist_of` apis)
       /\ (forall api, api ∈ apis -> api ≠ "run" -> api ∈ l)
       /\ ("run" ∉ apis -> l = apis).
Proof.
  split.
  - split; [|now intros ->].
    intros H. destruct (decide (apis = ["run"])) as [|Hne]; [assumption|].
    rewrite (additional_apis_of_other _ Hne) in H. discriminate H.
  - intros l H. destruct (decide (apis = ["run"])) as [->|Hne]; [discriminate H|].
    rewrite (additional_apis_of_other _ Hne) in H. injection H as <-.
    destruct (filter_not_run_spec apis) as [Hsub Hmem].
    split; [|split; [exact Hsub|split]].
    + intros Hin. apply Hmem in Hin. now destruct Hin.
    + intros api Hin Hn. apply Hmem. now split.
    + intros Hno. clear Hne Hsub Hmem.
      induction apis as [|api apis IH]; [reflexivity|].
      rewrite filter_cons. rewrite not_elem_of_cons in Hno. destruct Hno as [Hh Ht].
      destruct (decide (not_run api)) as [_|Hn].
      * f_equal. now apply IH.
      * elim Hn. intros ->. now apply Hh.
Qed.

(** ** The further properties on sample calls *)

Lemma serve_exception_origin_witness :
  apis_fail_call.1 = Raised apis_error
  /\ exists before ev,
       calls_of initial_world apis_fail_call.2 = (before ++ [ev])%list
       /\ raised_by apis_fail_env ev apis_error.
Proof.
  split; [reflexivity|].
  destruct (serve_exception_origin apis_fail_env "eos3b5e" None false "local"
              true false false false None initial_world apis_error eq_refl)
    as [[Hown|[(mid & Hown)|Hown]]|Hcollab].
  - discriminate Hown.
  - discriminate Hown.
  - discriminate Hown.
  - exact Hcollab.
Defined.

Lemma serve_passes_checked_fraction_witness :
  is_binary64 lit_0_2
  /\ EvErsiliaModel "eos3b5e" None None true (Some lit_0_2)
       ∈ calls_of initial_world (frac_call lit_0_2).2
  /\ forall c' f', EvSetupRedis c' f' ∈ calls_of initial_world (frac_call lit_0_2).2 ->
       c' = true /\ f' = Some lit_0_2.
Proof.
  assert (forall x, Some lit_0_2 = Some x -> is_binary64 x) as Hbin.
  { intros x Hx. injection Hx as <-. reflexivity. }
  assert (EvErsiliaModel "eos3b5e" None None true (Some lit_0_2)
            ∈ calls_of initial_world (frac_call lit_0_2).2) as Hin by in_calls.
  destruct (serve_passes_checked_fraction
              (sample_env true (Some sample_url) ["run"] true)
              "eos3b5e" None false "local" true false false false
              (Some lit_0_2) initial_world
              "eos3b5e" None None true (Some lit_0_2) Hbin Hin)
    as (_ & _ & _ & _ & _ & Hsame).
  split; [reflexivity|]. split; [exact Hin | exact Hsame].
Defined.

Lemma serve_invalid_after_redis_witness :
  EvIsValid (sample_handle "eos0aaa" None) ∈ calls_of initial_world slug_call.2
  /\ exists src cache label,
       cache_mode true false false false = (src, cache, label)
       /\ calls_of initial_world slug_call.2 =
            [ EvErsiliaModel "my-slug" src None cache None;
              EvSetupRedis cache None;
              EvIsValid (sample_handle "eos0aaa" None) ].
Proof.
  assert (EvIsValid (sample_handle "eos0aaa" None)
            ∈ calls_of initial_world slug_call.2) as Hin by in_calls.
  split; [exact Hin|].
  exact (serve_invalid_after_redis slug_env "my-slug" None false "local"
           true false false false None initial_world
           (sample_handle "eos0aaa" None) Hin eq_refl).
Defined.

Lemma serve_late_failure_keeps_session_witness :
  EvGetApis served_handle ∈ calls_of initial_world apis_fail_call.2
  /\ apis_fail_call.1 = Raised apis_error
  /\ exists mid dir,
       filter (fun ev => is_register_event ev = true)
         (calls_of initial_world apis_fail_call.2) = [EvRegister mid dir]
       /\ sessions apis_fail_call.2 = <[mid := dir]> ∅
       /\ sessions apis_fail_call.2 !! mid = Some dir.
Proof.
  assert (EvGetApis served_handle ∈ calls_of initial_world apis_fail_call.2)
    as Hin by in_calls.
  split; [exact Hin|].
  apply (serve_late_failure_keeps_session apis_fail_env "eos3b5e" None false "local"
           true false false false None initial_world apis_error).
  left. exists served_handle. split; [exact Hin | reflexivity].
Defined.

Lemma serve_registers_what_it_reports_witness :
  exists mid dir,
    result_of (sample_call ["run"]) !! "Model ID" = Some (VStr mid)
    /\ result_of (sample_call ["run"]) !! "Session" = Some (VStr dir)
    /\ filter (fun ev => is_register_event ev = true)
         (calls_of initial_world (sample_call ["run"]).2) = [EvRegister mid dir]
    /\ sessions (sample_call ["run"]).2 !! mid = Some dir
    /\ forall k, k ≠ mid -> sessions (sample_call ["run"]).2 !! k = (∅ : gmap string string) !! k.
Proof.
  exact (serve_registers_what_it_reports
           (sample_env true (Some sample_url) ["run"] false)
           "eos3b5e" None true "local" true true false false None initial_world
           _ _ (sample_call_returns ["run"])).
Defined.

Lemma serve_reports_served_handle_witness :
  EvServe (sample_handle "eos3b5e" None) (Some "local")
    ∈ calls_of initial_world (sample_call ["run"]).2
  /\ result_of (sample_call ["run"]) !! "URL" = Some (VStr sample_url)
  /\ result_of (sample_call ["run"]) !! "SRV" = Some (VSrv (Srv "pulled_docker")).
Proof.
  assert (EvServe (sample_handle "eos3b5e" None) (Some "local")
            ∈ calls_of initial_world (sample_call ["run"]).2) as Hin by in_calls.
  destruct (serve_reports_served_handle
              (sample_env true (Some sample_url) ["run"] false)
              "eos3b5e" None true "local" true true false false None initial_world
              _ _ (sample_handle "eos3b5e" None) (Some "local") served_handle
              (sample_call_returns ["run"]) Hin eq_refl)
    as ((u & Hu & Hurl) & _ & _ & Hsrv & _).
  injection Hu as <-.
  split; [exact Hin|]. split; [exact Hurl | exact Hsrv].
Defined.
